(** * sd-webui-sugarsnap: the Photopea tab extension

    A shallow embedding of [scripts/photopea_tab.py] and the properties of
    its four lifecycle hooks: [on_before_ui], [on_ui_settings],
    [on_ui_tabs] and [on_app_started].

    The script is orchestration code over host collaborators (the settings
    store, the extension registry, the git clone utility, the UI toolkit
    and the application server).  The hooks are embedded in a state and
    exception monad over the process state the script touches; the
    collaborators whose behaviour the script cannot control are gathered in
    an environment record [Env].

    Three collaborator calls can raise in this model: the clone and the
    read of the companion extension's model-count setting, which the
    script wraps in [try], and the construction of the static handler,
    which rejects a missing directory.  The UI toolkit's constructors, the
    settings store's [add_option] and [data.get], the logger and the
    application's [mount] are taken to return. *)

From Stdlib Require Import ZArith Ascii String List Lia.
From stdpp Require Import gmap strings list fin_maps pretty.

Open Scope string_scope.
Open Scope list_scope.
Open Scope Z_scope.
Open Scope stdpp_scope.

(** ** Python values and exceptions *)

(** The exception classes that matter to the script.  [KeyboardInterrupt],
    [SystemExit], [GeneratorExit] and user classes derived directly from
    [BaseException] are not instances of [Exception]; every other class
    is. *)
Inductive PyExc : Type :=
| KeyboardInterrupt
| SystemExit
| GeneratorExit
| BaseExceptionSubclass (cls : string)
| RuntimeError (detail : string)
| OSError (detail : string)
| TypeError (detail : string)
| AttributeError (detail : string)
| ExceptionSubclass (cls : string).

(** [isinstance(e, Exception)]. *)
Definition isinstance_Exception (e : PyExc) : bool :=
  match e with
  | KeyboardInterrupt | SystemExit | GeneratorExit
  | BaseExceptionSubclass _ => false
  | RuntimeError _ | OSError _ | TypeError _ | AttributeError _
  | ExceptionSubclass _ => true
  end.

(** The values that flow through the settings store. *)
Inductive PyVal : Type :=
| VNone
| VBool (b : bool)
| VInt (z : Z)
| VStr (s : string).

#[global] Instance PyVal_eq_dec : EqDecision PyVal.
Proof. solve_decision. Defined.

#[global] Instance PyExc_eq_dec : EqDecision PyExc.
Proof. solve_decision. Defined.

(** [bool] is a subclass of [int]: [True] is the integer 1. *)
Definition as_int (v : PyVal) : option Z :=
  match v with
  | VInt z => Some z
  | VBool b => Some (Z.b2z b)
  | VNone | VStr _ => None
  end.

(** Python's [==] on these values. *)
Definition py_eq (a b : PyVal) : bool :=
  match as_int a, as_int b with
  | Some x, Some y => x =? y
  | _, _ => bool_decide (a = b)
  end.

(** Python's [!=]. *)
Definition py_ne (a b : PyVal) : bool := negb (py_eq a b).

(** [needle in haystack] on strings. *)
Fixpoint startswith (haystack needle : string) {struct needle} : bool :=
  match needle, haystack with
  | EmptyString, _ => true
  | String _ _, EmptyString => false
  | String c needle', String d haystack' =>
      if Ascii.eqb c d then startswith haystack' needle' else false
  end.

Fixpoint str_contains (needle haystack : string) : bool :=
  if startswith haystack needle then true
  else match haystack with
       | EmptyString => false
       | String _ haystack' => str_contains needle haystack'
       end.

(** [range(n)] and [str(i)]. *)
Definition range (n : Z) : list Z := Z.of_nat <$> seq 0 (Z.to_nat n).

Definition str (i : Z) : string := pretty i.

(** [pathlib.Path], as its sequence of parts. *)
Record Path : Type := { parts : list string }.

Definition Path_of (s : string) : Path := {| parts := [s] |}.

Definition joinpath (p : Path) (child : string) : Path :=
  {| parts := parts p ++ [child] |}.

#[global] Instance Path_eq_dec : EqDecision Path.
Proof. solve_decision. Defined.

(** ** Logging *)

Inductive Level : Type := DEBUG | INFO | WARNING | ERROR | CRITICAL.

Definition levelno (l : Level) : Z :=
  match l with
  | DEBUG => 10 | INFO => 20 | WARNING => 30 | ERROR => 40 | CRITICAL => 50
  end.

(** A record as the module's logger hands it on; [exc_info] holds the
    exception being handled when the call passes [exc_info=True]. *)
Record LogRecord : Type := {
  levelname : Level;
  msg : string;
  exc_info : option PyExc
}.

(** [logger.setLevel(logging.INFO)]. *)
Definition logger_level : Level := INFO.

Definition isEnabledFor (l : Level) : bool := levelno logger_level <=? levelno l.

(** ** Host collaborators *)

(** One entry of the extension registry. *)
Record Extension : Type := { name : string }.

(** The UI toolkit's option presentation classes. *)
Inductive ComponentClass : Type := Textbox.

(** [shared.OptionInfo]. *)
Record OptionInfo : Type := {
  default : PyVal;
  label : string;
  component : ComponentClass;
  component_args : list (string * PyVal);
  section : string * string
}.

(** One call of [launch_utils.git_clone], with its keyword arguments. *)
Record GitCloneCall : Type := {
  url : PyVal;
  dir : Path;
  clone_name : string;
  commithash : PyVal
}.

(** [StaticFiles(directory=..., html=...)]. *)
Record StaticFiles : Type := {
  directory : Path;
  html : bool
}.

(** A mounted sub-application of the application server. *)
Record Mount : Type := {
  mount_path : string;
  mount_app : StaticFiles;
  mount_name : string
}.

(** The application server, as the routes mounted on it. *)
Record FastAPI : Type := { routes : list Mount }.

(** What the script cannot control: where the extension is installed,
    whether a clone succeeds, what the companion extension's model-count
    setting reads as, which extensions are active, and whether the static
    handler accepts its directory. *)
Record Env : Type := {
  basedir : string;
  git_clone : PyVal -> Path -> string -> PyVal -> option PyExc;
  control_net_max_models_num : PyExc + PyVal;
  active : list Extension;
  StaticFiles_init : Path -> bool -> option PyExc
}.

(** ** Process state and the hook monad *)

Record World : Type := {
  update_success : bool;
  log_records : list LogRecord;
  git_clone_calls : list GitCloneCall;
  opts_data : gmap string PyVal;
  opts_data_labels : gmap string OptionInfo
}.

Definition set_update_success (b : bool) (w : World) : World :=
  {| update_success := b;
     log_records := log_records w;
     git_clone_calls := git_clone_calls w;
     opts_data := opts_data w;
     opts_data_labels := opts_data_labels w |}.

Definition add_log_record (r : LogRecord) (w : World) : World :=
  {| update_success := update_success w;
     log_records := log_records w ++ [r];
     git_clone_calls := git_clone_calls w;
     opts_data := opts_data w;
     opts_data_labels := opts_data_labels w |}.

Definition add_git_clone_call (c : GitCloneCall) (w : World) : World :=
  {| update_success := update_success w;
     log_records := log_records w;
     git_clone_calls := git_clone_calls w ++ [c];
     opts_data := opts_data w;
     opts_data_labels := opts_data_labels w |}.

Definition set_data_label (key : string) (info : OptionInfo) (w : World) : World :=
  {| update_success := update_success w;
     log_records := log_records w;
     git_clone_calls := git_clone_calls w;
     opts_data := opts_data w;
     opts_data_labels := <[key := info]> (opts_data_labels w) |}.

(** The outcome of a call: a value, or a raised exception. *)
Inductive Res (A : Type) : Type :=
| Ret (a : A)
| Raise (e : PyExc).

Arguments Ret {A} a.
Arguments Raise {A} e.

Definition M (A : Type) : Type := World -> Res A * World.

Definition ret {A} (a : A) : M A := fun w => (Ret a, w).

Definition raise {A} (e : PyExc) : M A := fun w => (Raise e, w).

Definition bind {A B} (m : M A) (k : A -> M B) : M B :=
  fun w =>
    match m w with
    | (Ret a, w') => k a w'
    | (Raise e, w') => (Raise e, w')
    end.

Notation "'let*' x ':=' m 'in' k" := (bind m (fun x => k))
  (at level 10, x name, m at level 100, k at level 200).

(** [try: body  except <class>: handler], where [catches] is the
    [isinstance] test of the except clause. *)
Definition try_except {A} (body : M A) (catches : PyExc -> bool)
    (handler : PyExc -> M A) : M A :=
  fun w =>
    match body w with
    | (Ret a, w') => (Ret a, w')
    | (Raise e, w') => if catches e then handler e w' else (Raise e, w')
    end.

Definition modify (f : World -> World) : M unit := fun w => (Ret tt, f w).

Definition gets {A} (f : World -> A) : M A := fun w => (Ret (f w), w).

(** [logger.log(level, msg)]: the record is produced when the logger is
    enabled for the level. *)
Definition logger_log (l : Level) (m : string) (exc : option PyExc) : M unit :=
  if isEnabledFor l
  then modify (add_log_record {| levelname := l; msg := m; exc_info := exc |})
  else ret tt.

Definition logger_critical (m : string) (exc : option PyExc) : M unit :=
  logger_log CRITICAL m exc.

Definition logger_warn (m : string) : M unit := logger_log WARNING m None.

(** [launch_utils.git_clone(url=, dir=, name=, commithash=)]: the call is
    made, then returns or raises as the environment decides. *)
Definition launch_utils_git_clone (env : Env) (u : PyVal) (d : Path)
    (n : string) (h : PyVal) : M unit :=
  let* _ := modify (add_git_clone_call
            {| url := u; dir := d; clone_name := n; commithash := h |}) in
  match git_clone env u d n h with
  | None => ret tt
  | Some e => raise e
  end.

(** [shared.opts.add_option(key, info)]: the store keeps one entry per key,
    the last registration winning. *)
Definition add_option (key : string) (info : OptionInfo) : M unit :=
  modify (set_data_label key info).

(** [shared.opts.control_net_max_models_num]: the host resolves the
    attribute against its options, which the companion extension
    registers; what the lookup yields, a value or an exception, is the
    environment's. *)
Definition read_control_net_max_models_num (env : Env) : M PyVal :=
  match control_net_max_models_num env with
  | inl e => raise e
  | inr v => ret v
  end.

(** [StaticFiles(directory=d, html=h)]. *)
Definition new_StaticFiles (env : Env) (d : Path) (h : bool) : M StaticFiles :=
  match StaticFiles_init env d h with
  | None => ret {| directory := d; html := h |}
  | Some e => raise e
  end.

(** [app.mount(path=, app=, name=)]. *)
Definition mount (app : FastAPI) (p : string) (sub : StaticFiles)
    (n : string) : FastAPI :=
  {| routes := routes app ++
       [{| mount_path := p; mount_app := sub; mount_name := n |}] |}.

(** ** The UI toolkit *)

(** The components the tab is built from, with the constructor arguments
    the script passes (a component is visible unless told otherwise);
    [Row] and [Column] hold the components created inside their [with]
    block, in order. *)
#[warnings="-register-all"]
Inductive Component : Type :=
| Button (value : string) (elem_id : option string) (visible : bool)
| Checkbox (label info elem_id : string)
| Dropdown (choices : list string) (label value : string)
    (interactive visible : bool)
| Slider (minimum maximum value step : Z) (label : string)
    (interactive : bool) (elem_id : string)
| HTML (value : string) (visible : bool)
| Row (elem_id : option string) (children : list Component)
| Column (children : list Component).

(** One [trigger.click(fn, inputs, outputs, _js=...)] registration. *)
Record Event : Type := {
  trigger : Component;
  fn : option string;
  inputs : option Component;
  outputs : option Component;
  _js : string
}.

(** [gr.Blocks(analytics_enabled=...)] once its [with] block has run. *)
Record Blocks : Type := {
  analytics_enabled : bool;
  children : list Component;
  events : list Event
}.

Definition click (t : Component) (f : option string)
    (ins outs : option Component) (js : string) : Event :=
  {| trigger := t; fn := f; inputs := ins; outputs := outs; _js := js |}.

(** [type(v).__name__]. *)
Definition type_name (v : PyVal) : string :=
  match v with
  | VNone => "NoneType"
  | VBool _ => "bool"
  | VInt _ => "int"
  | VStr _ => "str"
  end.

(** [range(v)] and [v > k] on a value of the settings store: both raise
    [TypeError] unless the value is an integer. *)
Definition py_range (v : PyVal) : M (list Z) :=
  match as_int v with
  | Some n => ret (range n)
  | None =>
      raise (TypeError ("'" +:+ type_name v +:+
                        "' object cannot be interpreted as an integer"))
  end.

Definition py_gt (v : PyVal) (k : Z) : M bool :=
  match as_int v with
  | Some n => ret (k <? n)
  | None =>
      raise (TypeError ("'>' not supported between instances of '" +:+
                        type_name v +:+ "' and 'int'"))
  end.

(** ** The script *)

(** [photopea_ext_dir] and [photopea_app_dir]. *)
Definition photopea_ext_dir (env : Env) : Path := Path_of (basedir env).

Definition photopea_app_dir (env : Env) : Path :=
  joinpath (photopea_ext_dir env) "app".

Definition opt_section : string * string := ("photopea", "Photopea").

(** The module-level [update_success = False], with the rest of the state
    as the host hands it over. *)
Definition module_loaded (data : gmap string PyVal)
    (labels : gmap string OptionInfo) : World :=
  {| update_success := false;
     log_records := [];
     git_clone_calls := [];
     opts_data := data;
     opts_data_labels := labels |}.

(** [shared.opts.data.get(f"photopea_{name}", default)]. *)
Definition _get_setting (setting : string) (dflt : PyVal) : M PyVal :=
  gets (fun w => from_option id dflt (opts_data w !! ("photopea_" +:+ setting))).

Definition update_photopea (env : Env) (repo_url : PyVal) (target_dir : Path)
    (commit_hash : PyVal) : M bool :=
  try_except
    (let* _ :=
       launch_utils_git_clone env repo_url target_dir "Photopea" commit_hash in
     ret true)
    isinstance_Exception
    (fun e =>
       let* _ :=
         logger_critical "Failed to update Photopea, will not load!" (Some e) in
       ret false).

Definition default_repo_url : string :=
  "https://git.nixnet.services/DUOLabs333/Photopea-Offline.git".

Definition on_before_ui (env : Env) : M unit :=
  let* repo_url := _get_setting "repo_url" (VStr default_repo_url) in
  let* commit_hash := _get_setting "commit_hash" (VStr "") in
  let* ok :=
    update_photopea env repo_url (photopea_app_dir env)
      (if py_ne commit_hash (VStr "") then commit_hash else VNone) in
  modify (set_update_success ok).

Definition textbox_args : list (string * PyVal) :=
  [("interactive", VBool true); ("max_lines", VInt 1)].

Definition repo_url_option : OptionInfo :=
  {| default := VStr default_repo_url;
     label := "Photopea repository URL";
     component := Textbox;
     component_args := textbox_args;
     section := opt_section |}.

Definition commit_hash_option : OptionInfo :=
  {| default := VStr "";
     label := "Photopea repository commit hash";
     component := Textbox;
     component_args := textbox_args;
     section := opt_section |}.

Definition on_ui_settings : M unit :=
  let* _ := add_option "photopea_repo_url" repo_url_option in
  add_option "photopea_commit_hash" commit_hash_option.

Definition on_app_started (env : Env) (app : FastAPI) : M FastAPI :=
  let* flag := gets update_success in
  if flag then
    let* photopea_app :=
      new_StaticFiles env (joinpath (photopea_app_dir env) "www.photopea.com")
        true in
    ret (mount app "/photopea" photopea_app "photopea")
  else
    let* _ := logger_warn "Photopea not loaded due to update failure!" in
    ret app.

(** The double quote character, for the markup below. *)
Definition dq : string := String (ascii_of_nat 34) EmptyString.

Definition controlnet_missing_html : string :=
  "<b>Controlnet extension not found!</b> Either <a href=" +:+ dq +:+
  "https://github.com/Mikubill/sd-webui-controlnet" +:+ dq +:+ " target=" +:+
  dq +:+ "_blank" +:+ dq +:+
  ">install it</a>, or activate it under Settings.".

Definition premium_html : string :=
  "<font size=" +:+ dq +:+ "small" +:+ dq +:+ "><p align=" +:+ dq +:+
  "right" +:+ dq +:+ ">Consider supporting Photopea by <a href=" +:+ dq +:+
  "https://www.photopea.com/api/accounts" +:+ dq +:+ " target=" +:+ dq +:+
  "_blank" +:+ dq +:+ ">going Premium</a>!</font></p>".

(** The loop over [extensions.active()], with its [break].  The second
    component lists the extensions whose [name] the loop has tested. *)
Fixpoint scan_active (exts : list Extension) : bool * list Extension :=
  match exts with
  | [] => (false, [])
  | extension :: rest =>
      if str_contains "controlnet" (name extension)
      then (true, [extension])
      else let '(found, tested) := scan_active rest in
           (found, extension :: tested)
  end.

Definition on_ui_tabs (env : Env) : M (list (Blocks * string * string)) :=
  let controlnet_exists := fst (scan_active (active env)) in
  let show_photopea :=
    Button "Load Photopea" (Some "photopeaLoadButton") true in
  let active_layer_only :=
    Checkbox "Active Layer Only"
      "If true, instead of sending the flattened image, will send just the currently selected layer."
      "photopea-use-active-layer-only" in
  let* num_controlnet_models :=
    try_except (read_control_net_max_models_num env)
      (fun _ => true)
      (fun _ => ret (VInt 1)) in
  let* indices := py_range num_controlnet_models in
  let* several := py_gt num_controlnet_models 1 in
  let select_target_index :=
    Dropdown (str <$> indices) "ControlNet model index" "0" true several in
  let iframe_height :=
    Slider 512 2160 768 10 "iFrame height" true "photopeaIframeSlider" in
  let controlnet_missing :=
    HTML controlnet_missing_html (negb controlnet_exists) in
  let send_t2i_cn :=
    Button "Send to txt2img ControlNet" None controlnet_exists in
  let send_extras := Button "Send to Extras" None true in
  let send_i2i := Button "Send to img2img" None true in
  let send_i2i_cn :=
    Button "Send to img2img ControlNet" None controlnet_exists in
  let send_selection_inpaint := Button "Inpaint selection" None true in
  let photopea_tab :=
    {| analytics_enabled := false;
       children :=
         [ Row None [show_photopea];
           Row (Some "photopeaIframeContainer") [];
           Row None [active_layer_only; select_target_index; iframe_height];
           Row None
             [ Column [controlnet_missing; send_t2i_cn; send_extras];
               Column [send_i2i; send_i2i_cn];
               Column [send_selection_inpaint] ];
           Row None [HTML premium_html true] ];
       events :=
         [ click send_t2i_cn None (Some select_target_index) None
             "(i) => {getAndSendImageToWebUITab('txt2img', true, i)}";
           click send_extras None (Some select_target_index) None
             "(i) => {getAndSendImageToWebUITab('extras', false, i)}";
           click send_i2i None (Some select_target_index) None
             "(i) => {getAndSendImageToWebUITab('img2img', false, i)}";
           click send_i2i_cn None (Some select_target_index) None
             "(i) => {getAndSendImageToWebUITab('img2img', true, i)}";
           click send_selection_inpaint None None None
             "sendImageWithMaskSelectionToWebUi";
           click show_photopea None None None "loadPhotopea" ] |} in
  ret [(photopea_tab, "Photopea", "photopea_embed")].

(** The registrations at the end of the module: the host calls the four
    hooks once each, in this order. *)
Definition host_startup (env : Env) (app : FastAPI)
    : M (list (Blocks * string * string) * FastAPI) :=
  let* _ := on_before_ui env in
  let* _ := on_ui_settings in
  let* tabs := on_ui_tabs env in
  let* app' := on_app_started env app in
  ret (tabs, app').

(** ** Observations on a built tab *)

(** The components of a subtree, containers opened, in creation order. *)
Fixpoint flatten (c : Component) : list Component :=
  match c with
  | Row _ cs | Column cs =>
      (fix go (l : list Component) : list Component :=
         match l with
         | [] => []
         | x :: r => flatten x ++ go r
         end) cs
  | _ => [c]
  end.

Definition leaves (b : Blocks) : list Component :=
  concat (flatten <$> children b).

(** The text a component shows: a button's or markup's [value], the
    [label] of an input. *)
Definition caption (c : Component) : string :=
  match c with
  | Button v _ _ => v
  | Checkbox l _ _ => l
  | Dropdown _ l _ _ _ => l
  | Slider _ _ _ _ l _ _ => l
  | HTML v _ => v
  | Row _ _ | Column _ => ""
  end.

Definition is_visible (c : Component) : bool :=
  match c with
  | Button _ _ v => v
  | Dropdown _ _ _ _ v => v
  | HTML _ v => v
  | Checkbox _ _ _ | Slider _ _ _ _ _ _ _ | Row _ _ | Column _ => true
  end.

Definition find_caption (s : string) (b : Blocks) : option Component :=
  List.find (fun c => String.eqb (caption c) s) (leaves b).

Definition visible_of (s : string) (b : Blocks) : option bool :=
  is_visible <$> find_caption s b.

(** The wiring table of a tab: per registration, the trigger's caption,
    the caption of the input control, and the browser-side action. *)
Definition wiring (b : Blocks) : list (string * option string * string) :=
  (fun ev => (caption (trigger ev), caption <$> inputs ev, _js ev)) <$> events b.

(** The browser-side image-send action for a destination tab and a
    send-to-companion flag, taking the target index [i]. *)
Definition send_js (destination : string) (to_controlnet : bool) : string :=
  "(i) => {getAndSendImageToWebUITab('" +:+ destination +:+ "', " +:+
  (if to_controlnet then "true" else "false") +:+ ", i)}".

(** [needle] occurs in [haystack]. *)
Definition is_substring (needle haystack : string) : Prop :=
  exists pre post, haystack = pre +:+ needle +:+ post.

(** The clone arguments the settings store holds: the repository URL, and
    the revision with the empty string standing for the latest one. *)
Definition configured_repo_url (w : World) : PyVal :=
  from_option id (VStr default_repo_url) (opts_data w !! "photopea_repo_url").

Definition configured_revision (w : World) : PyVal :=
  let stored :=
    from_option id (VStr "") (opts_data w !! "photopea_commit_hash") in
  if decide (stored = VStr "") then VNone else stored.

(** The one clone call a run makes from the state [w]. *)
Definition provisioning_call (env : Env) (w : World) : GitCloneCall :=
  {| url := configured_repo_url w;
     dir := {| parts := [basedir env; "app"] |};
     clone_name := "Photopea";
     commithash := configured_revision w |}.


(** The static handler the script mounts. *)
Definition photopea_mount (env : Env) : Mount :=
  {| mount_path := "/photopea";
     mount_app :=
       {| directory :=
            {| parts := [basedir env; "app"; "www.photopea.com"] |};
          html := true |};
     mount_name := "photopea" |}.

Definition update_failure_warning : LogRecord :=
  {| levelname := WARNING;
     msg := "Photopea not loaded due to update failure!";
     exc_info := None |}.

Definition update_failure_critical (e : PyExc) : LogRecord :=
  {| levelname := CRITICAL;
     msg := "Failed to update Photopea, will not load!";
     exc_info := Some e |}.

(** ** Sample collaborators *)

(** A host where everything works: the clone succeeds, the companion
    extension is active with three model tabs. *)
Definition sample_env : Env :=
  {| basedir := "/opt/webui/extensions/sd-webui-sugarsnap";
     git_clone := fun _ _ _ _ => None;
     control_net_max_models_num := inr (VInt 3);
     active := [ {| name := "foo" |}; {| name := "sd-webui-controlnet" |} ];
     StaticFiles_init := fun _ _ => None |}.

(** The same host, with the clone raising [e]. *)
Definition clone_raising (e : PyExc) : Env :=
  {| basedir := basedir sample_env;
     git_clone := fun _ _ _ _ => Some e;
     control_net_max_models_num := control_net_max_models_num sample_env;
     active := active sample_env;
     StaticFiles_init := StaticFiles_init sample_env |}.

(** A host without the companion extension, whose model-count setting
    reads as [v]. *)
Definition models_num_reading (v : PyExc + PyVal) : Env :=
  {| basedir := basedir sample_env;
     git_clone := git_clone sample_env;
     control_net_max_models_num := v;
     active := [ {| name := "foo" |}; {| name := "bar" |} ];
     StaticFiles_init := StaticFiles_init sample_env |}.

(** A host whose static handler rejects the directory it is given. *)
Definition missing_directory : Env :=
  {| basedir := basedir sample_env;
     git_clone := git_clone sample_env;
     control_net_max_models_num := control_net_max_models_num sample_env;
     active := active sample_env;
     StaticFiles_init := fun _ _ => Some (RuntimeError "Directory does not exist") |}.

(** The host of [sample_env], whose model-count setting reads as [v]. *)
Definition companion_with_models_num (v : PyExc + PyVal) : Env :=
  {| basedir := basedir sample_env;
     git_clone := git_clone sample_env;
     control_net_max_models_num := v;
     active := active sample_env;
     StaticFiles_init := StaticFiles_init sample_env |}.

(** The settings store with a pinned revision. *)
Definition pinned_data : gmap string PyVal :=
  <["photopea_commit_hash" := VStr "0a1b2c3"]> ∅.

(** The same host with another list of active extensions. *)
Definition with_active (env : Env) (exts : list Extension) : Env :=
  {| basedir := basedir env;
     git_clone := git_clone env;
     control_net_max_models_num := control_net_max_models_num env;
     active := exts;
     StaticFiles_init := StaticFiles_init env |}.



(** ** Proof steps for the tab composer *)


(** Unfolds [on_ui_tabs] in the goal once hypothesis [H] tells what the
    model-count setting reads as, and takes the tab it builds. *)
Ltac exists_tab_after H :=
  unfold on_ui_tabs, try_except, read_control_net_max_models_num, bind,
    py_range, py_gt;
  rewrite H; simpl; eexists.

(** ** The static mounter *)

Lemma on_app_started_failed env app w :
  update_success w = false ->
  on_app_started env app w = (Ret app, add_log_record update_failure_warning w).
Proof.
  intros Hflag. unfold on_app_started, bind, gets. rewrite Hflag. reflexivity.
Qed.

Lemma on_app_started_succeeded env app w :
  update_success w = true ->
  on_app_started env app w =
    match StaticFiles_init env
            (joinpath (photopea_app_dir env) "www.photopea.com") true with
    | None => (Ret {| routes := routes app ++ [photopea_mount env] |}, w)
    | Some e => (Raise e, w)
    end.
Proof.
  intros Hflag. unfold on_app_started, bind, gets, new_StaticFiles.
  rewrite Hflag.
  destruct (StaticFiles_init env _ true); reflexivity.
Qed.


Lemma app_not_extended (l : list Mount) (m : Mount) : l <> l ++ [m].
Proof.
  intros Heq. apply (f_equal length) in Heq.
  rewrite length_app in Heq. simpl in Heq. lia.
Qed.

(** C1, as the spec states it, fails: after a clone that succeeded the
    provisioning flag is true, but when the static handler rejects its
    directory the after-start hook raises the handler's [RuntimeError]
    and returns no application: nothing is mounted although the flag is
    true. *)
Lemma on_app_started_flag_true_not_mounted :
  update_success (snd (on_before_ui missing_directory (module_loaded ∅ ∅)))
    = true /\
  on_app_started missing_directory {| routes := [] |}
    (snd (on_before_ui missing_directory (module_loaded ∅ ∅))) =
    (Raise (RuntimeError "Directory does not exist"),
     snd (on_before_ui missing_directory (module_loaded ∅ ∅))) /\
  ~ (exists app' w',
       on_app_started missing_directory {| routes := [] |}
         (snd (on_before_ui missing_directory (module_loaded ∅ ∅))) =
         (Ret app', w')).
Proof.
  split; [reflexivity|]. split; [reflexivity|].
  intros [app' [w' Hrun]]. discriminate Hrun.
Qed.

(** C1, amended: provided that, when the provisioning flag is true, the
    static handler accepts its directory, the after-start hook returns,
    and it mounts the handler (directory [<basedir>/app/www.photopea.com],
    [html=True], at [/photopea], named [photopea]) on the given
    application exactly when the flag is true; then it logs nothing.
    When the flag is false the application is left as it was and one
    warning record is logged, whatever the static handler would do.  When
    the flag is true and the static handler raises, the hook raises that
    exception, and nothing is mounted or logged. *)
Theorem on_app_started_mounts_iff_flag (env : Env) (app : FastAPI) (w : World) :
  ((update_success w = true ->
    StaticFiles_init env (joinpath (photopea_app_dir env) "www.photopea.com")
      true = None) ->
   exists app' w',
     on_app_started env app w = (Ret app', w') /\
     (routes app' = routes app ++ [photopea_mount env]
        <-> update_success w = true) /\
     (if update_success w
      then log_records w' = log_records w
      else app' = app /\
           log_records w' = log_records w ++ [update_failure_warning]) /\
     update_success w' = update_success w /\
     git_clone_calls w' = git_clone_calls w /\
     opts_data_labels w' = opts_data_labels w) /\
  (forall e,
     update_success w = true ->
     StaticFiles_init env (joinpath (photopea_app_dir env) "www.photopea.com")
       true = Some e ->
     on_app_started env app w = (Raise e, w)).
Proof.
  split.
  - intros Hinit. destruct (update_success w) eqn:Hflag.
    + rewrite (on_app_started_succeeded _ _ _ Hflag), (Hinit eq_refl).
      eexists _, _. split; [reflexivity|]. simpl.
      rewrite Hflag. repeat split; auto.
    + rewrite (on_app_started_failed _ _ _ Hflag).
      eexists _, _. split; [reflexivity|]. simpl.
      rewrite Hflag. repeat split; auto; try discriminate.
      intros Heq. exfalso. exact (app_not_extended _ _ Heq).
  - intros e Hflag Hinit.
    rewrite (on_app_started_succeeded _ _ _ Hflag), Hinit. reflexivity.
Qed.

Lemma on_app_started_mounts_iff_flag_witness :
  exists app' w',
    on_app_started sample_env {| routes := [] |}
      (set_update_success true (module_loaded ∅ ∅)) = (Ret app', w') /\
    (routes app' = [] ++ [photopea_mount sample_env] <-> true = true) /\
    log_records w' = [] /\
    update_success w' = true /\
    git_clone_calls w' = [] /\
    opts_data_labels w' = ∅.
Proof.
  exact (proj1 (on_app_started_mounts_iff_flag sample_env {| routes := [] |}
                  (set_update_success true (module_loaded ∅ ∅)))
           (fun _ => eq_refl)).
Defined.

(** ** The asset provisioner *)

Lemma update_photopea_eq env u d h w :
  update_photopea env u d h w =
    let w1 := add_git_clone_call
                {| url := u; dir := d; clone_name := "Photopea";
                   commithash := h |} w in
    match git_clone env u d "Photopea" h with
    | None => (Ret true, w1)
    | Some e =>
        if isinstance_Exception e
        then (Ret false, add_log_record (update_failure_critical e) w1)
        else (Raise e, w1)
    end.
Proof.
  unfold update_photopea, try_except, launch_utils_git_clone, bind, modify.
  destruct (git_clone env u d "Photopea" h) as [e|]; simpl; [|reflexivity].
  destruct (isinstance_Exception e); reflexivity.
Qed.

(** C2, as the spec states it, fails: when the clone is interrupted from
    the keyboard, the [KeyboardInterrupt] it raises is outside the
    [Exception] hierarchy, is not caught, and leaves [update_photopea];
    nothing is logged and [False] is not returned. *)
Lemma update_photopea_KeyboardInterrupt_escapes :
  git_clone (clone_raising KeyboardInterrupt) (VStr default_repo_url)
    (photopea_app_dir sample_env) "Photopea" VNone = Some KeyboardInterrupt /\
  fst (update_photopea (clone_raising KeyboardInterrupt)
         (VStr default_repo_url) (photopea_app_dir sample_env) VNone
         (module_loaded ∅ ∅)) = Raise KeyboardInterrupt /\
  fst (update_photopea (clone_raising KeyboardInterrupt)
         (VStr default_repo_url) (photopea_app_dir sample_env) VNone
         (module_loaded ∅ ∅)) <> Ret false /\
  log_records
    (snd (update_photopea (clone_raising KeyboardInterrupt)
            (VStr default_repo_url) (photopea_app_dir sample_env) VNone
            (module_loaded ∅ ∅))) = [].
Proof.
  split; [reflexivity|]. split; [reflexivity|].
  split; [discriminate|reflexivity].
Qed.

(** C2, amended: [update_photopea] returns [True] when the clone call
    returns; for every exception the clone raises that is an instance of
    [Exception], whatever its class, it is caught, exactly one
    critical-level record carrying it is logged and [False] is returned; an
    exception that is not an instance of [Exception] propagates, with
    nothing logged.  In each case the clone was called once. *)
Theorem update_photopea_catches_Exception (env : Env) (u : PyVal) (d : Path)
    (h : PyVal) (w : World) :
  let call := {| url := u; dir := d; clone_name := "Photopea";
                 commithash := h |} in
  let r := fst (update_photopea env u d h w) in
  let w' := snd (update_photopea env u d h w) in
  git_clone_calls w' = git_clone_calls w ++ [call] /\
  update_success w' = update_success w /\
  (git_clone env u d "Photopea" h = None ->
     r = Ret true /\ log_records w' = log_records w) /\
  (forall e, git_clone env u d "Photopea" h = Some e ->
     isinstance_Exception e = true ->
     r = Ret false /\
     log_records w' = log_records w ++ [update_failure_critical e]) /\
  (forall e, git_clone env u d "Photopea" h = Some e ->
     isinstance_Exception e = false ->
     r = Raise e /\ log_records w' = log_records w).
Proof.
  intros call r w'. subst r w'. rewrite update_photopea_eq.
  destruct (git_clone env u d "Photopea" h) as [e|]; simpl.
  - destruct (isinstance_Exception e) eqn:He; simpl.
    + split; [reflexivity|]. split; [reflexivity|].
      split; [discriminate|]. split.
      * intros e' [= <-] _. split; reflexivity.
      * intros e' [= <-] He'. congruence.
    + split; [reflexivity|]. split; [reflexivity|].
      split; [discriminate|]. split.
      * intros e' [= <-] He'. congruence.
      * intros e' [= <-] _. split; reflexivity.
  - split; [reflexivity|]. split; [reflexivity|].
    split; [intros _; split; reflexivity|].
    split; intros e' [=].
Qed.

Lemma update_photopea_catches_Exception_witness :
  fst (update_photopea (clone_raising (OSError "network unreachable"))
         (VStr default_repo_url) (photopea_app_dir sample_env) VNone
         (module_loaded ∅ ∅)) = Ret false /\
  log_records
    (snd (update_photopea (clone_raising (OSError "network unreachable"))
            (VStr default_repo_url) (photopea_app_dir sample_env) VNone
            (module_loaded ∅ ∅))) =
    [] ++ [update_failure_critical (OSError "network unreachable")].
Proof.
  exact (proj1 (proj2 (proj2 (proj2
    (update_photopea_catches_Exception
       (clone_raising (OSError "network unreachable"))
       (VStr default_repo_url) (photopea_app_dir sample_env) VNone
       (module_loaded ∅ ∅)))))
    (OSError "network unreachable") eq_refl eq_refl).
Defined.

(** ** The before-UI hook *)

Lemma py_ne_empty_str (v : PyVal) :
  py_ne v (VStr "") = negb (bool_decide (v = VStr "")).
Proof. destruct v; reflexivity. Qed.

Lemma on_before_ui_eq (env : Env) (w : World) :
  on_before_ui env w =
    match update_photopea env (configured_repo_url w) (photopea_app_dir env)
            (configured_revision w) w with
    | (Ret b, w1) => (Ret tt, set_update_success b w1)
    | (Raise e, w1) => (Raise e, w1)
    end.
Proof.
  unfold on_before_ui, bind, _get_setting, gets, modify. simpl.
  rewrite py_ne_empty_str.
  unfold configured_revision, configured_repo_url.
  destruct (decide (_ = VStr "")) as [Heq|Hne].
  - rewrite bool_decide_eq_true_2 by assumption. simpl.
    destruct (update_photopea _ _ _ _ _) as [[b|e] w1]; reflexivity.
  - rewrite bool_decide_eq_false_2 by assumption. simpl.
    destruct (update_photopea _ _ _ _ _) as [[b|e] w1]; reflexivity.
Qed.

(** ** Substring test and the scan of the active extensions *)

Lemma startswith_spec (haystack needle : string) :
  startswith haystack needle = true <->
  exists post, haystack = needle +:+ post.
Proof.
  revert haystack. induction needle as [|c needle IH]; intros haystack; simpl.
  - split; [intros _; exists haystack; reflexivity | reflexivity].
  - destruct haystack as [|d haystack].
    + split; [discriminate | intros [post Hpost]; discriminate].
    + destruct (Ascii.eqb_spec c d) as [->|Hne].
      * rewrite IH. split; intros [post Hpost]; exists post.
        -- simpl. now rewrite Hpost.
        -- simpl in Hpost. now inversion Hpost.
      * split; [discriminate|]. intros [post Hpost].
        simpl in Hpost. inversion Hpost. congruence.
Qed.

Lemma str_contains_spec (needle haystack : string) :
  str_contains needle haystack = true <-> is_substring needle haystack.
Proof.
  unfold is_substring. induction haystack as [|d haystack IH]; simpl.
  - destruct (startswith "" needle) eqn:Hs.
    + split; [intros _|reflexivity].
      apply startswith_spec in Hs as [post Hpost]. now exists "", post.
    + split; [discriminate|]. intros [pre [post Heq]].
      destruct pre; [|discriminate].
      assert (startswith "" needle = true) as Hs'
        by (apply startswith_spec; now exists post).
      congruence.
  - destruct (startswith (String d haystack) needle) eqn:Hs.
    + split; [intros _|reflexivity].
      apply startswith_spec in Hs as [post Hpost]. now exists "", post.
    + rewrite IH. split.
      * intros [pre [post Heq]]. exists (String d pre), post.
        simpl. now rewrite Heq.
      * intros [pre [post Heq]]. destruct pre as [|c pre].
        -- assert (startswith (String d haystack) needle = true) as Hs'
             by (apply startswith_spec; now exists post).
           congruence.
        -- simpl in Heq. inversion Heq. now exists pre, post.
Qed.

Lemma scan_active_found_iff (exts : list Extension) :
  fst (scan_active exts) = true <->
  exists e, e ∈ exts /\ is_substring "controlnet" (name e).
Proof.
  induction exts as [|x rest IH]; simpl.
  - split; [discriminate|]. intros [e [Hin _]]. inversion Hin.
  - destruct (str_contains "controlnet" (name x)) eqn:Hx.
    + split; [intros _|reflexivity].
      exists x. split; [left|]. now apply str_contains_spec.
    + destruct (scan_active rest) as [found tested]. simpl in *.
      rewrite IH. split.
      * intros [e [Hin He]]. exists e. split; [now right|assumption].
      * intros [e [Hin He]]. apply elem_of_cons in Hin as [->|Hin].
        -- apply str_contains_spec in He. congruence.
        -- now exists e.
Qed.

Lemma scan_active_first_match (pre : list Extension) (e : Extension)
    (post : list Extension) :
  Forall (fun x => ~ is_substring "controlnet" (name x)) pre ->
  is_substring "controlnet" (name e) ->
  scan_active (pre ++ e :: post) = (true, pre ++ [e]).
Proof.
  intros Hpre He. induction Hpre as [|x pre Hx Hpre IH]; simpl.
  - apply str_contains_spec in He. now rewrite He.
  - destruct (str_contains "controlnet" (name x)) eqn:Hc.
    + apply str_contains_spec in Hc. contradiction.
    + now rewrite IH.
Qed.

Lemma scan_active_no_match (exts : list Extension) :
  Forall (fun x => ~ is_substring "controlnet" (name x)) exts ->
  scan_active exts = (false, exts).
Proof.
  intros Hall. induction Hall as [|x exts Hx Hall IH]; simpl; [reflexivity|].
  destruct (str_contains "controlnet" (name x)) eqn:Hc.
  - apply str_contains_spec in Hc. contradiction.
  - now rewrite IH.
Qed.

(** ** The tab composer *)

(** C5, as the spec states it, fails: with the companion extension
    active the flag is true, but when the model-count setting reads as the
    string ["3"] the composer raises [TypeError] before any button
    exists: no tab is returned, so the ControlNet buttons are not
    rendered. *)
Lemma on_ui_tabs_companion_not_rendered :
  fst (scan_active (active (companion_with_models_num (inr (VStr "3")))))
    = true /\
  on_ui_tabs (companion_with_models_num (inr (VStr "3"))) (module_loaded ∅ ∅)
    = (Raise (TypeError "'str' object cannot be interpreted as an integer"),
       module_loaded ∅ ∅) /\
  ~ (exists tabs w',
       on_ui_tabs (companion_with_models_num (inr (VStr "3")))
         (module_loaded ∅ ∅) = (Ret tabs, w')).
Proof.
  split; [reflexivity|]. split; [reflexivity|].
  intros [tabs [w' Hrun]]. discriminate Hrun.
Qed.

(** C5, amended: for every list of active extensions, the companion flag
    is true exactly when some active extension's name contains
    [controlnet]; the scan stops at the first such extension, having
    tested the names up to and including it, and no name after it.
    Provided reading the model-count setting raises or yields an integer,
    the composer returns its tab, and in it the two ControlNet send
    buttons are visible exactly when the flag is true and the help
    message exactly when it is false. *)
Theorem on_ui_tabs_companion_controls (env : Env) (w : World) :
  (forall v, control_net_max_models_num env = inr v -> is_Some (as_int v)) ->
  let companionPresent := fst (scan_active (active env)) in
  exists tab,
    on_ui_tabs env w = (Ret [(tab, "Photopea", "photopea_embed")], w) /\
    (companionPresent = true <->
       exists e, e ∈ active env /\ is_substring "controlnet" (name e)) /\
    (forall pre e post,
       active env = pre ++ e :: post ->
       Forall (fun x => ~ is_substring "controlnet" (name x)) pre ->
       is_substring "controlnet" (name e) ->
       snd (scan_active (active env)) = pre ++ [e]) /\
    visible_of "Send to txt2img ControlNet" tab = Some companionPresent /\
    visible_of "Send to img2img ControlNet" tab = Some companionPresent /\
    visible_of controlnet_missing_html tab = Some (negb companionPresent).
Proof.
  intros Hnum companionPresent.
  assert (Hfirst : forall pre e post,
             active env = pre ++ e :: post ->
             Forall (fun x => ~ is_substring "controlnet" (name x)) pre ->
             is_substring "controlnet" (name e) ->
             snd (scan_active (active env)) = pre ++ [e]).
  { intros pre e post Hactive Hpre He.
    rewrite Hactive, (scan_active_first_match pre e post Hpre He).
    reflexivity. }
  subst companionPresent.
  unfold on_ui_tabs, try_except, read_control_net_max_models_num, bind,
    py_range, py_gt.
  destruct (control_net_max_models_num env) as [e|v]; simpl.
  - eexists. split; [reflexivity|].
    split; [apply scan_active_found_iff|]. split; [exact Hfirst|].
    repeat split; reflexivity.
  - destruct (Hnum v eq_refl) as [n ->]. simpl.
    eexists. split; [reflexivity|].
    split; [apply scan_active_found_iff|]. split; [exact Hfirst|].
    repeat split; reflexivity.
Qed.

Lemma on_ui_tabs_companion_controls_witness :
  (exists tab,
     on_ui_tabs sample_env (module_loaded ∅ ∅) =
       (Ret [(tab, "Photopea", "photopea_embed")], module_loaded ∅ ∅) /\
     visible_of "Send to txt2img ControlNet" tab = Some true /\
     visible_of "Send to img2img ControlNet" tab = Some true /\
     visible_of controlnet_missing_html tab = Some false) /\
  (exists tab,
     on_ui_tabs (models_num_reading (inl (AttributeError "no such option")))
       (module_loaded ∅ ∅) =
       (Ret [(tab, "Photopea", "photopea_embed")], module_loaded ∅ ∅) /\
     visible_of "Send to txt2img ControlNet" tab = Some false /\
     visible_of "Send to img2img ControlNet" tab = Some false /\
     visible_of controlnet_missing_html tab = Some true).
Proof.
  split.
  - destruct (on_ui_tabs_companion_controls sample_env (module_loaded ∅ ∅))
      as [tab [Hrun [_ [_ [Ht2i [Hi2i Hhelp]]]]]].
    { intros v [= <-]. exists 3. reflexivity. }
    exists tab. split; [exact Hrun|].
    split; [exact Ht2i|]. split; [exact Hi2i|exact Hhelp].
  - destruct (on_ui_tabs_companion_controls
                (models_num_reading (inl (AttributeError "no such option")))
                (module_loaded ∅ ∅))
      as [tab [Hrun [_ [_ [Ht2i [Hi2i Hhelp]]]]]].
    { intros v [=]. }
    exists tab. split; [exact Hrun|].
    split; [exact Ht2i|]. split; [exact Hi2i|exact Hhelp].
Defined.

(** The spec's second example: without the companion extension the two
    buttons are hidden and the help message is shown. *)
Example on_ui_tabs_without_companion :
  exists tab w',
    on_ui_tabs (models_num_reading (inr (VInt 1))) (module_loaded ∅ ∅) =
      (Ret [(tab, "Photopea", "photopea_embed")], w') /\
    visible_of "Send to txt2img ControlNet" tab = Some false /\
    visible_of "Send to img2img ControlNet" tab = Some false /\
    visible_of controlnet_missing_html tab = Some true.
Proof. eexists _, _. repeat split; reflexivity. Qed.

Lemma range_length (n : Z) : length (range n) = Z.to_nat n.
Proof. unfold range. now rewrite length_fmap, length_seq. Qed.

Lemma range_lookup (n i : Z) :
  0 <= i < n -> (str <$> range n) !! Z.to_nat i = Some (str i).
Proof.
  intros Hi. unfold range.
  rewrite list_lookup_fmap, list_lookup_fmap.
  rewrite lookup_seq_lt by lia. simpl.
  now rewrite Z2Nat.id by lia.
Qed.

(** C6: when the model-count setting reads as the integer [n], the
    target-index selector offers [str(0)], ..., [str(n-1)] ([n] options,
    the [i]-th being [str(i)]), has value ["0"], and is visible exactly
    when [n > 1]; when reading the setting raises an exception of any
    class (as it does when the setting is absent), the selector is built
    for [n = 1]: its only option is ["0"], its value is ["0"] and it is
    hidden. *)
Theorem on_ui_tabs_target_selector (env : Env) (w : World) :
  (forall n, control_net_max_models_num env = inr (VInt n) ->
     exists tab visible,
       on_ui_tabs env w = (Ret [(tab, "Photopea", "photopea_embed")], w) /\
       find_caption "ControlNet model index" tab =
         Some (Dropdown (str <$> range n) "ControlNet model index" "0"
                 true visible) /\
       (visible = true <-> n > 1) /\
       length (str <$> range n) = Z.to_nat n /\
       (forall i, 0 <= i < n ->
          (str <$> range n) !! Z.to_nat i = Some (str i))) /\
  (forall e, control_net_max_models_num env = inl e ->
     exists tab,
       on_ui_tabs env w = (Ret [(tab, "Photopea", "photopea_embed")], w) /\
       find_caption "ControlNet model index" tab =
         Some (Dropdown ["0"] "ControlNet model index" "0" true false)).
Proof.
  split.
  - intros n Hn. exists_tab_after Hn.
    exists (1 <? n). split; [reflexivity|]. split; [reflexivity|].
    split; [rewrite Z.ltb_lt; lia|].
    split; [now rewrite length_fmap, range_length|].
    apply range_lookup.
  - intros e He. exists_tab_after He.
    split; reflexivity.
Qed.

Lemma on_ui_tabs_target_selector_witness :
  control_net_max_models_num sample_env = inr (VInt 3) /\
  exists tab visible,
    on_ui_tabs sample_env (module_loaded ∅ ∅) =
      (Ret [(tab, "Photopea", "photopea_embed")], module_loaded ∅ ∅) /\
    find_caption "ControlNet model index" tab =
      Some (Dropdown ["0"; "1"; "2"] "ControlNet model index" "0" true
              visible) /\
    (visible = true <-> 3 > 1) /\
    length ["0"; "1"; "2"] = 3%nat /\
    (forall i, 0 <= i < 3 ->
       (str <$> range 3) !! Z.to_nat i = Some (str i)).
Proof.
  split; [reflexivity|].
  exact (proj1 (on_ui_tabs_target_selector sample_env (module_loaded ∅ ∅))
           3 eq_refl).
Defined.

(** C10: when the model-count setting reads as 0, the tab is built, and
    its target-index selector has no options, keeps the value ["0"], which
    is not among its options, and is hidden; it is not the selector built
    when the setting cannot be read, whose only option is ["0"]. *)
Theorem on_ui_tabs_zero_models (env : Env) (w : World) :
  control_net_max_models_num env = inr (VInt 0) ->
  exists tab choices value,
    on_ui_tabs env w = (Ret [(tab, "Photopea", "photopea_embed")], w) /\
    find_caption "ControlNet model index" tab =
      Some (Dropdown choices "ControlNet model index" value true false) /\
    choices = [] /\
    value = "0" /\
    (value ∉ choices) /\
    (choices <> ["0"]).
Proof.
  intros Hn. exists_tab_after Hn. exists [], "0".
  split; [reflexivity|]. split; [reflexivity|].
  split; [reflexivity|]. split; [reflexivity|].
  split; [apply not_elem_of_nil|discriminate].
Qed.

Lemma on_ui_tabs_zero_models_witness :
  control_net_max_models_num (models_num_reading (inr (VInt 0))) =
    inr (VInt 0) /\
  exists tab choices value,
    on_ui_tabs (models_num_reading (inr (VInt 0))) (module_loaded ∅ ∅) =
      (Ret [(tab, "Photopea", "photopea_embed")], module_loaded ∅ ∅) /\
    find_caption "ControlNet model index" tab =
      Some (Dropdown choices "ControlNet model index" value true false) /\
    choices = [] /\
    value = "0" /\
    (value ∉ choices) /\
    (choices <> ["0"]).
Proof.
  split; [reflexivity|].
  exact (on_ui_tabs_zero_models (models_num_reading (inr (VInt 0)))
           (module_loaded ∅ ∅) eq_refl).
Defined.

(** C7, as the spec states it, fails: when the model-count setting reads
    as the string ["2"] the composer raises [TypeError] at the selector,
    before any click is registered: no tab is returned, and so there is
    no wiring at all. *)
Lemma on_ui_tabs_no_wiring :
  on_ui_tabs (models_num_reading (inr (VStr "2"))) (module_loaded ∅ ∅)
    = (Raise (TypeError "'str' object cannot be interpreted as an integer"),
       module_loaded ∅ ∅) /\
  ~ (exists tabs w',
       on_ui_tabs (models_num_reading (inr (VStr "2"))) (module_loaded ∅ ∅)
         = (Ret tabs, w')).
Proof.
  split; [reflexivity|].
  intros [tabs [w' Hrun]]. discriminate Hrun.
Qed.

(** C7, amended: provided reading the model-count setting raises or
    yields an integer, the composer returns its tab, with or without the
    companion extension, and the click registrations of the tab are this
    table: each of the four send buttons passes the target-index selector
    and runs the image-send action for, in turn, (txt2img, true),
    (extras, false), (img2img, false) and (img2img, true); the mask
    selection button runs [sendImageWithMaskSelectionToWebUi] and the
    load button runs [loadPhotopea], both without inputs.  No
    registration has a server-side function or an output, the four send
    actions are pairwise distinct, the control passed is the selector of
    the tab, every trigger is a control of the tab, and the mask
    selection button and the load button are visible whatever the
    companion flag. *)
Theorem on_ui_tabs_wiring (env : Env) (w : World) :
  (forall v, control_net_max_models_num env = inr v -> is_Some (as_int v)) ->
  exists tab,
    on_ui_tabs env w = (Ret [(tab, "Photopea", "photopea_embed")], w) /\
    wiring tab =
      [ ("Send to txt2img ControlNet", Some "ControlNet model index",
         send_js "txt2img" true);
        ("Send to Extras", Some "ControlNet model index",
         send_js "extras" false);
        ("Send to img2img", Some "ControlNet model index",
         send_js "img2img" false);
        ("Send to img2img ControlNet", Some "ControlNet model index",
         send_js "img2img" true);
        ("Inpaint selection", None, "sendImageWithMaskSelectionToWebUi");
        ("Load Photopea", None, "loadPhotopea") ] /\
    Forall (fun ev => fn ev = None /\ outputs ev = None) (events tab) /\
    Forall (fun ev =>
              inputs ev = None \/
              inputs ev = find_caption "ControlNet model index" tab)
      (events tab) /\
    Forall (fun ev =>
              Some (trigger ev) = find_caption (caption (trigger ev)) tab)
      (events tab) /\
    NoDup [ send_js "txt2img" true; send_js "extras" false;
            send_js "img2img" false; send_js "img2img" true ] /\
    visible_of "Inpaint selection" tab = Some true /\
    visible_of "Load Photopea" tab = Some true.
Proof.
  intros Hnum.
  assert (Hdistinct : NoDup [ send_js "txt2img" true; send_js "extras" false;
                              send_js "img2img" false; send_js "img2img" true ]).
  { repeat (apply NoDup_cons; split;
            [rewrite ?elem_of_cons, elem_of_nil; vm_compute;
             intuition discriminate|]).
    apply NoDup_nil_2. }
  unfold on_ui_tabs, try_except, read_control_net_max_models_num, bind,
    py_range, py_gt.
  destruct (control_net_max_models_num env) as [e|v]; simpl.
  - eexists. split; [reflexivity|]. split; [reflexivity|].
    split; [repeat constructor|].
    split; [repeat (constructor;
                    [first [left; reflexivity | right; reflexivity]|]);
            constructor|].
    split; [repeat (constructor; [reflexivity|]); constructor|].
    split; [exact Hdistinct|]. split; reflexivity.
  - destruct (Hnum v eq_refl) as [n ->]. simpl.
    eexists. split; [reflexivity|]. split; [reflexivity|].
    split; [repeat constructor|].
    split; [repeat (constructor;
                    [first [left; reflexivity | right; reflexivity]|]);
            constructor|].
    split; [repeat (constructor; [reflexivity|]); constructor|].
    split; [exact Hdistinct|]. split; reflexivity.
Qed.

Lemma on_ui_tabs_wiring_witness :
  exists tab,
    on_ui_tabs (models_num_reading (inr (VInt 1))) (module_loaded ∅ ∅) =
      (Ret [(tab, "Photopea", "photopea_embed")], module_loaded ∅ ∅) /\
    wiring tab =
      [ ("Send to txt2img ControlNet", Some "ControlNet model index",
         "(i) => {getAndSendImageToWebUITab('txt2img', true, i)}");
        ("Send to Extras", Some "ControlNet model index",
         "(i) => {getAndSendImageToWebUITab('extras', false, i)}");
        ("Send to img2img", Some "ControlNet model index",
         "(i) => {getAndSendImageToWebUITab('img2img', false, i)}");
        ("Send to img2img ControlNet", Some "ControlNet model index",
         "(i) => {getAndSendImageToWebUITab('img2img', true, i)}");
        ("Inpaint selection", None, "sendImageWithMaskSelectionToWebUi");
        ("Load Photopea", None, "loadPhotopea") ] /\
    visible_of "Inpaint selection" tab = Some true.
Proof.
  destruct (on_ui_tabs_wiring (models_num_reading (inr (VInt 1)))
              (module_loaded ∅ ∅))
    as [tab [Hrun [Hwiring [_ [_ [_ [_ [Hmask _]]]]]]]].
  { intros v [= <-]. exists 1. reflexivity. }
  exists tab. split; [exact Hrun|]. split; [exact Hwiring|exact Hmask].
Defined.

(** ** The settings registrant *)

Lemma on_ui_settings_eq (w : World) :
  on_ui_settings w =
    (Ret tt,
     set_data_label "photopea_commit_hash" commit_hash_option
       (set_data_label "photopea_repo_url" repo_url_option w)).
Proof. reflexivity. Qed.

Lemma insert_two_again (m : gmap string OptionInfo) (k1 k2 : string)
    (i1 i2 : OptionInfo) :
  k1 <> k2 ->
  <[k2 := i2]> (<[k1 := i1]> (<[k2 := i2]> (<[k1 := i1]> m))) =
  <[k2 := i2]> (<[k1 := i1]> m).
Proof.
  intros Hne.
  rewrite (insert_insert_ne (<[k1 := i1]> m) k1 k2) by congruence.
  now rewrite insert_insert_eq, insert_insert_eq.
Qed.

(** C8: the settings hook returns and registers [photopea_repo_url]
    (default the public repository URL) and [photopea_commit_hash]
    (default empty), each as an interactive one-line text box in the
    ("photopea", "Photopea") section; it adds these two keys to the store
    and no other, touches nothing but the store's registrations, and
    running it a second time changes nothing: from an empty store, after
    two runs exactly these two keys are registered. *)
Theorem on_ui_settings_registers_two_idempotent (w : World) :
  let w1 := snd (on_ui_settings w) in
  fst (on_ui_settings w) = Ret tt /\
  opts_data_labels w1 !! "photopea_repo_url" =
    Some {| default :=
              VStr "https://git.nixnet.services/DUOLabs333/Photopea-Offline.git";
            label := "Photopea repository URL";
            component := Textbox;
            component_args :=
              [("interactive", VBool true); ("max_lines", VInt 1)];
            section := ("photopea", "Photopea") |} /\
  opts_data_labels w1 !! "photopea_commit_hash" =
    Some {| default := VStr "";
            label := "Photopea repository commit hash";
            component := Textbox;
            component_args :=
              [("interactive", VBool true); ("max_lines", VInt 1)];
            section := ("photopea", "Photopea") |} /\
  dom (opts_data_labels w1) =
    dom (opts_data_labels w) ∪
      {["photopea_repo_url"; "photopea_commit_hash"]} /\
  (forall key, key <> "photopea_repo_url" -> key <> "photopea_commit_hash" ->
     opts_data_labels w1 !! key = opts_data_labels w !! key) /\
  update_success w1 = update_success w /\
  log_records w1 = log_records w /\
  git_clone_calls w1 = git_clone_calls w /\
  opts_data w1 = opts_data w /\
  on_ui_settings w1 = (Ret tt, w1) /\
  dom (opts_data_labels
         (snd (on_ui_settings
                 (snd (on_ui_settings
                         (module_loaded (opts_data w) ∅)))))) =
    {["photopea_repo_url"; "photopea_commit_hash"]}.
Proof.
  intros w1. subst w1. rewrite !on_ui_settings_eq. simpl.
  split; [reflexivity|].
  split.
  { rewrite lookup_insert_ne by discriminate. apply lookup_insert_eq. }
  split; [apply lookup_insert_eq|].
  split.
  { rewrite !dom_insert_L. apply set_eq. intros key.
    rewrite !elem_of_union, !elem_of_singleton. tauto. }
  split.
  { intros key Hrepo Hhash. now rewrite !lookup_insert_ne by congruence. }
  do 4 (split; [reflexivity|]).
  split.
  - unfold set_data_label. simpl.
    now rewrite insert_two_again by discriminate.
  - rewrite !dom_insert_L, dom_empty_L. apply set_eq. intros key.
    rewrite !elem_of_union, !elem_of_singleton, elem_of_empty. tauto.
Qed.

Lemma on_ui_settings_registers_two_idempotent_witness :
  opts_data_labels (snd (on_ui_settings (module_loaded ∅ ∅)))
    !! "control_net_max_models_num" =
  opts_data_labels (module_loaded ∅ ∅) !! "control_net_max_models_num".
Proof.
  refine (proj1 (proj2 (proj2 (proj2 (proj2
    (on_ui_settings_registers_two_idempotent (module_loaded ∅ ∅))))))
    "control_net_max_models_num" _ _); discriminate.
Defined.

(** ** The whole startup *)

Lemma on_ui_tabs_world (env : Env) (w : World) : snd (on_ui_tabs env w) = w.
Proof.
  unfold on_ui_tabs, try_except, read_control_net_max_models_num, bind,
    py_range, py_gt.
  destruct (control_net_max_models_num env) as [e|v]; simpl; [reflexivity|].
  destruct (as_int v); reflexivity.
Qed.

Lemma on_app_started_world (env : Env) (app : FastAPI) (w : World) :
  update_success (snd (on_app_started env app w)) = update_success w /\
  git_clone_calls (snd (on_app_started env app w)) = git_clone_calls w.
Proof.
  destruct (update_success w) eqn:Hflag.
  - rewrite (on_app_started_succeeded _ _ _ Hflag).
    destruct (StaticFiles_init env _ true); simpl; auto.
  - rewrite (on_app_started_failed _ _ _ Hflag). simpl. auto.
Qed.

Lemma on_before_ui_calls (env : Env) (w : World) :
  git_clone_calls (snd (on_before_ui env w)) =
    git_clone_calls w ++ [provisioning_call env w].
Proof.
  rewrite on_before_ui_eq, update_photopea_eq. simpl.
  destruct (git_clone env _ _ _ _) as [e|]; [|reflexivity].
  destruct (isinstance_Exception e); reflexivity.
Qed.

(** The hooks after the first one make no clone call and leave the
    provisioning flag alone. *)
Lemma host_startup_after_before_ui (env : Env) (app : FastAPI) (w : World) :
  git_clone_calls (snd (host_startup env app w)) =
    git_clone_calls (snd (on_before_ui env w)) /\
  update_success (snd (host_startup env app w)) =
    update_success (snd (on_before_ui env w)).
Proof.
  unfold host_startup, bind.
  destruct (on_before_ui env w) as [[[]|e] w1]; cbv beta iota;
    [|simpl; auto].
  rewrite on_ui_settings_eq. cbv beta iota.
  set (w2 := set_data_label _ _ (set_data_label _ _ w1)).
  pose proof (on_ui_tabs_world env w2) as Htabs.
  destruct (on_ui_tabs env w2) as [[tabs|e] w3]; simpl in Htabs; subst w3;
    cbv beta iota; [|simpl; auto].
  pose proof (on_app_started_world env app w2) as [Hflag Hcalls].
  destruct (on_app_started env app w2) as [[app'|e] w4]; simpl in *; auto.
Qed.

(** C3: the before-UI hook calls the clone utility exactly once, and the
    whole startup calls it that once only, with the URL read from
    [photopea_repo_url] (default: the public repository), the extension's
    [app] directory, the name [Photopea], and the revision read from
    [photopea_commit_hash] (default empty) with the empty string replaced
    by [None]; whenever [update_photopea] returns a boolean, the hook
    returns and the state it leaves is the one [update_photopea] left with
    the provisioning flag set to that boolean. *)
Theorem on_before_ui_provisions_once (env : Env) (w : World) :
  let call := provisioning_call env w in
  git_clone_calls (snd (on_before_ui env w)) = git_clone_calls w ++ [call] /\
  (forall app,
     git_clone_calls (snd (host_startup env app w)) =
       git_clone_calls w ++ [call]) /\
  url call =
    match opts_data w !! "photopea_repo_url" with
    | Some v => v
    | None =>
        VStr "https://git.nixnet.services/DUOLabs333/Photopea-Offline.git"
    end /\
  dir call = {| parts := [basedir env; "app"] |} /\
  clone_name call = "Photopea" /\
  commithash call =
    match opts_data w !! "photopea_commit_hash" with
    | None | Some (VStr "") => VNone
    | Some v => v
    end /\
  forall b w1,
    update_photopea env (url call) (dir call) (commithash call) w
      = (Ret b, w1) ->
    on_before_ui env w = (Ret tt, set_update_success b w1) /\
    update_success (snd (on_before_ui env w)) = b.
Proof.
  intros call. subst call.
  split; [apply on_before_ui_calls|].
  split.
  { intros app.
    rewrite (proj1 (host_startup_after_before_ui env app w)).
    apply on_before_ui_calls. }
  split.
  { simpl. unfold configured_repo_url.
    destruct (opts_data w !! "photopea_repo_url"); reflexivity. }
  split; [reflexivity|]. split; [reflexivity|].
  split.
  { simpl. unfold configured_revision.
    destruct (opts_data w !! "photopea_commit_hash") as [v|]; simpl;
      [|reflexivity].
    destruct (decide (v = VStr "")) as [->|Hne]; [reflexivity|].
    destruct v as [| | |[|c s]]; try reflexivity. congruence. }
  intros b w1 Hupd. rewrite on_before_ui_eq.
  simpl in Hupd. unfold photopea_app_dir, photopea_ext_dir, joinpath, Path_of.
  simpl. rewrite Hupd. split; reflexivity.
Qed.

Lemma on_before_ui_provisions_once_witness :
  on_before_ui sample_env (module_loaded pinned_data ∅) =
    (Ret tt,
     set_update_success true
       (add_git_clone_call
          {| url := VStr default_repo_url;
             dir := {| parts := [basedir sample_env; "app"] |};
             clone_name := "Photopea";
             commithash := VStr "0a1b2c3" |}
          (module_loaded pinned_data ∅))) /\
  update_success
    (snd (on_before_ui sample_env (module_loaded pinned_data ∅))) = true.
Proof.
  exact (proj2 (proj2 (proj2 (proj2 (proj2 (proj2
    (on_before_ui_provisions_once sample_env
       (module_loaded pinned_data ∅)))))))
    true _ eq_refl).
Defined.

Lemma on_app_started_mount_needs_flag (env : Env) (app app' : FastAPI)
    (w w' : World) :
  on_app_started env app w = (Ret app', w') ->
  routes app' <> routes app ->
  update_success w = true.
Proof.
  intros Hrun Hroutes. destruct (update_success w) eqn:Hflag; [reflexivity|].
  rewrite (on_app_started_failed _ _ _ Hflag) in Hrun.
  injection Hrun as <- _. contradiction.
Qed.

(** C9: the provisioning flag is false when the module is loaded, so the
    after-start hook run on that state, whatever the static handler would
    do, mounts nothing and logs the warning; so it does after a before-UI
    hook whose clone raised an [Exception], which records false.  The
    after-start hook changes the routes only from a state whose flag is
    true, and in a whole startup from module load a route is mounted only
    if the clone call returned and true was recorded. *)
Theorem mount_requires_recorded_success (env : Env) (app : FastAPI) :
  (forall data labels,
     update_success (module_loaded data labels) = false /\
     on_app_started env app (module_loaded data labels) =
       (Ret app,
        add_log_record update_failure_warning (module_loaded data labels))) /\
  (forall w e,
     git_clone env (configured_repo_url w) (photopea_app_dir env) "Photopea"
       (configured_revision w) = Some e ->
     isinstance_Exception e = true ->
     exists w1,
       on_before_ui env w = (Ret tt, w1) /\
       update_success w1 = false /\
       on_app_started env app w1 =
         (Ret app, add_log_record update_failure_warning w1)) /\
  (forall w app' w',
     on_app_started env app w = (Ret app', w') ->
     routes app' <> routes app ->
     update_success w = true) /\
  (forall data labels tabs app' w',
     host_startup env app (module_loaded data labels)
       = (Ret (tabs, app'), w') ->
     routes app' <> routes app ->
     update_success w' = true /\
     git_clone env (configured_repo_url (module_loaded data labels))
       (photopea_app_dir env) "Photopea"
       (configured_revision (module_loaded data labels)) = None).
Proof.
  split.
  { intros data labels. split; [reflexivity|].
    now apply on_app_started_failed. }
  split.
  { intros w e Hclone He. eexists. rewrite on_before_ui_eq, update_photopea_eq.
    cbv zeta. rewrite Hclone, He.
    split; [reflexivity|]. split; [reflexivity|].
    now apply on_app_started_failed. }
  split; [intros w app' w'; apply on_app_started_mount_needs_flag|].
  intros data labels tabs app' w' Hrun Hroutes.
  pose proof (host_startup_after_before_ui env app (module_loaded data labels))
    as [_ Hflag].
  rewrite Hrun in Hflag. simpl in Hflag.
  unfold host_startup, bind in Hrun.
  rewrite on_before_ui_eq, update_photopea_eq in Hrun, Hflag.
  cbv zeta in Hrun, Hflag.
  destruct (git_clone env _ _ _ _) as [e|].
  - exfalso. destruct (isinstance_Exception e); [|discriminate Hrun].
    cbv beta iota in Hrun. rewrite on_ui_settings_eq in Hrun.
    cbv beta iota in Hrun.
    match type of Hrun with
    | context [on_ui_tabs env ?w2] =>
        pose proof (on_ui_tabs_world env w2) as Htabs;
        destruct (on_ui_tabs env w2) as [[tabs'|e'] w3];
        simpl in Htabs; subst w3; cbv beta iota in Hrun;
        [|discriminate Hrun];
        rewrite (on_app_started_failed env app w2 eq_refl) in Hrun
    end.
    cbv beta iota in Hrun. unfold ret in Hrun.
    injection Hrun as _ <- _. contradiction.
  - split; [exact Hflag|reflexivity].
Qed.

Lemma mount_requires_recorded_success_witness :
  update_success
    (snd (host_startup sample_env {| routes := [] |} (module_loaded ∅ ∅)))
    = true /\
  git_clone sample_env (configured_repo_url (module_loaded ∅ ∅))
    (photopea_app_dir sample_env) "Photopea"
    (configured_revision (module_loaded ∅ ∅)) = None.
Proof.
  refine (proj2 (proj2 (proj2
    (mount_requires_recorded_success sample_env {| routes := [] |})))
    ∅ ∅ _ {| routes := [photopea_mount sample_env] |} _ eq_refl _).
  discriminate.
Defined.

(** ** Failures and the host *)




(** ** Further properties of the before-UI hook *)

(** X1: the revision the before-UI hook hands to the clone is never the
    empty string.  It is [None] exactly when [photopea_commit_hash] is
    absent from the store, or stored as the empty string or as [None]; any
    other stored value, and any stored [photopea_repo_url], is passed on
    as it is. *)
Theorem on_before_ui_revision_never_empty (env : Env) (w : World) :
  exists call,
    git_clone_calls (snd (on_before_ui env w)) = git_clone_calls w ++ [call] /\
    commithash call <> VStr "" /\
    (commithash call = VNone <->
       opts_data w !! "photopea_commit_hash" = None \/
       opts_data w !! "photopea_commit_hash" = Some (VStr "") \/
       opts_data w !! "photopea_commit_hash" = Some VNone) /\
    (forall v, opts_data w !! "photopea_commit_hash" = Some v ->
       v <> VStr "" -> commithash call = v) /\
    (forall v, opts_data w !! "photopea_repo_url" = Some v -> url call = v).
Proof.
  exists (provisioning_call env w).
  split; [apply on_before_ui_calls|].
  simpl. unfold configured_revision, configured_repo_url.
  destruct (opts_data w !! "photopea_commit_hash") as [v|]; simpl.
  - destruct (decide (v = VStr "")) as [->|Hne].
    + split; [discriminate|]. split; [tauto|].
      split; [intros v [= <-] Hv; congruence|].
      intros v ->. reflexivity.
    + split; [assumption|]. split.
      * split.
        -- intros ->. right. right. reflexivity.
        -- intros [H|[H|H]]; congruence.
      * split; [intros v' [= <-] _; reflexivity|].
        intros v' ->. reflexivity.
  - split; [discriminate|]. split; [tauto|].
    split; [discriminate|]. intros v ->. reflexivity.
Qed.

Lemma on_before_ui_revision_never_empty_witness :
  exists call,
    git_clone_calls (snd (on_before_ui sample_env (module_loaded pinned_data ∅)))
      = [] ++ [call] /\
    commithash call = VStr "0a1b2c3".
Proof.
  destruct (on_before_ui_revision_never_empty sample_env
              (module_loaded pinned_data ∅))
    as [call [Hcalls [_ [_ [Hkeep _]]]]].
  exists call. split; [exact Hcalls|].
  apply Hkeep; [reflexivity|discriminate].
Defined.

(** X2: the before-UI hook returns exactly when the clone returns or
    raises an instance of [Exception]; when it returns, the provisioning
    flag is true exactly when the clone returned, whatever the flag was
    before.  When the hook raises, it raises the clone's exception, which
    is not an instance of [Exception], and the flag and the log are as
    they were.  The hook never writes to the settings store. *)
Theorem on_before_ui_outcome (env : Env) (w : World) :
  let clone :=
    git_clone env (configured_repo_url w) (photopea_app_dir env) "Photopea"
      (configured_revision w) in
  let r := fst (on_before_ui env w) in
  let w' := snd (on_before_ui env w) in
  (r = Ret tt <->
     clone = None \/
     exists e, clone = Some e /\ isinstance_Exception e = true) /\
  (r = Ret tt -> (update_success w' = true <-> clone = None)) /\
  (forall e, r = Raise e ->
     clone = Some e /\ isinstance_Exception e = false /\
     update_success w' = update_success w /\
     log_records w' = log_records w) /\
  opts_data w' = opts_data w /\
  opts_data_labels w' = opts_data_labels w.
Proof.
  intros clone r w'. subst clone r w'.
  rewrite on_before_ui_eq, update_photopea_eq. cbv zeta.
  destruct (git_clone env _ _ _ _) as [e|].
  - destruct (isinstance_Exception e) eqn:He; simpl.
    + split; [split; [intros _; right; now exists e|reflexivity]|].
      split; [intros _; split; discriminate|].
      split; [discriminate|]. split; reflexivity.
    + split.
      { split; [discriminate|].
        intros [H|[e' [[= <-] He']]]; congruence. }
      split; [discriminate|].
      split; [|split; reflexivity].
      intros e' [= <-]. repeat split; assumption.
  - simpl. split; [split; [intros _; now left|reflexivity]|].
    split; [intros _; split; reflexivity|].
    split; [discriminate|]. split; reflexivity.
Qed.

Lemma on_before_ui_outcome_witness :
  update_success
    (snd (on_before_ui (clone_raising (OSError "network unreachable"))
            (set_update_success true (module_loaded ∅ ∅)))) = true <->
  git_clone (clone_raising (OSError "network unreachable"))
    (configured_repo_url (set_update_success true (module_loaded ∅ ∅)))
    (photopea_app_dir (clone_raising (OSError "network unreachable")))
    "Photopea"
    (configured_revision (set_update_success true (module_loaded ∅ ∅)))
    = None.
Proof.
  exact (proj1 (proj2
    (on_before_ui_outcome (clone_raising (OSError "network unreachable"))
       (set_update_success true (module_loaded ∅ ∅)))) eq_refl).
Defined.

(** X3: the defaults the before-UI hook falls back on are the defaults
    the settings hook registers.  When neither key is in the data store,
    the clone is called with the registered default of
    [photopea_repo_url], and the registered default of
    [photopea_commit_hash] is the empty string, for which the hook passes
    [None]. *)
Theorem registered_defaults_are_the_fallbacks (env : Env) (w : World) :
  opts_data w !! "photopea_repo_url" = None ->
  opts_data w !! "photopea_commit_hash" = None ->
  exists call repo_info hash_info,
    git_clone_calls (snd (on_before_ui env w)) = git_clone_calls w ++ [call] /\
    opts_data_labels (snd (on_ui_settings w)) !! "photopea_repo_url"
      = Some repo_info /\
    opts_data_labels (snd (on_ui_settings w)) !! "photopea_commit_hash"
      = Some hash_info /\
    url call = default repo_info /\
    default hash_info = VStr "" /\
    commithash call = VNone.
Proof.
  intros Hrepo Hhash.
  exists (provisioning_call env w), repo_url_option, commit_hash_option.
  split; [apply on_before_ui_calls|].
  rewrite on_ui_settings_eq. simpl.
  split; [rewrite lookup_insert_ne by discriminate; apply lookup_insert_eq|].
  split; [apply lookup_insert_eq|].
  unfold configured_repo_url, configured_revision.
  rewrite Hrepo, Hhash. repeat split.
Qed.

Lemma registered_defaults_are_the_fallbacks_witness :
  exists call repo_info hash_info,
    git_clone_calls (snd (on_before_ui sample_env (module_loaded ∅ ∅)))
      = [] ++ [call] /\
    opts_data_labels (snd (on_ui_settings (module_loaded ∅ ∅)))
      !! "photopea_repo_url" = Some repo_info /\
    opts_data_labels (snd (on_ui_settings (module_loaded ∅ ∅)))
      !! "photopea_commit_hash" = Some hash_info /\
    url call = default repo_info /\
    default hash_info = VStr "" /\
    commithash call = VNone.
Proof.
  exact (registered_defaults_are_the_fallbacks sample_env (module_loaded ∅ ∅)
           eq_refl eq_refl).
Defined.

(** X4: the before-UI hook and the settings hook do not interfere: when
    the before-UI hook returns, running the two in either order leaves
    the same state. *)
Theorem on_before_ui_on_ui_settings_commute (env : Env) (w : World) :
  fst (on_before_ui env w) = Ret tt ->
  (let* _ := on_before_ui env in on_ui_settings) w =
  (let* _ := on_ui_settings in on_before_ui env) w.
Proof.
  unfold bind. rewrite on_ui_settings_eq. cbv beta iota.
  rewrite !on_before_ui_eq, !update_photopea_eq. cbv zeta.
  unfold configured_repo_url, configured_revision. simpl opts_data.
  destruct (git_clone env _ _ _ _) as [e|].
  - destruct (isinstance_Exception e); [|discriminate].
    intros _. reflexivity.
  - intros _. reflexivity.
Qed.

Lemma on_before_ui_on_ui_settings_commute_witness :
  (let* _ := on_before_ui sample_env in on_ui_settings)
    (module_loaded pinned_data ∅) =
  (let* _ := on_ui_settings in on_before_ui sample_env)
    (module_loaded pinned_data ∅).
Proof.
  exact (on_before_ui_on_ui_settings_commute sample_env
           (module_loaded pinned_data ∅) eq_refl).
Defined.

(** ** Further properties of the after-start hook *)

(** X5: whatever the collaborators do, the after-start hook keeps the
    routes already mounted, in order, and adds at most the one Photopea
    mount after them; it never changes the provisioning flag.  It raises
    only from a state whose flag is true, and only the exception of the
    static handler's constructor; then nothing is logged. *)
Theorem on_app_started_keeps_routes (env : Env) (app : FastAPI) (w : World) :
  match on_app_started env app w with
  | (Ret app', w') =>
      (routes app' = routes app \/
       routes app' = routes app ++ [photopea_mount env]) /\
      update_success w' = update_success w
  | (Raise e, w') =>
      update_success w = true /\
      StaticFiles_init env
        {| parts := [basedir env; "app"; "www.photopea.com"] |} true
        = Some e /\
      w' = w
  end.
Proof.
  destruct (update_success w) eqn:Hflag.
  - rewrite (on_app_started_succeeded _ _ _ Hflag).
    unfold photopea_app_dir, photopea_ext_dir, joinpath, Path_of. simpl.
    destruct (StaticFiles_init env _ true) as [e|].
    + repeat split.
    + split; [right; reflexivity|assumption].
  - rewrite (on_app_started_failed _ _ _ Hflag).
    split; [left; reflexivity|]. simpl. assumption.
Qed.

(** X6: the after-start hook is not guarded against a second call: run
    twice from a state whose flag is true, with a static handler that
    accepts the directory, it mounts the handler twice. *)
Theorem on_app_started_twice_mounts_twice (env : Env) (app : FastAPI)
    (w : World) :
  update_success w = true ->
  StaticFiles_init env (joinpath (photopea_app_dir env) "www.photopea.com")
    true = None ->
  (let* app1 := on_app_started env app in on_app_started env app1) w =
    (Ret {| routes := routes app ++ [photopea_mount env; photopea_mount env] |},
     w).
Proof.
  intros Hflag Hinit. unfold bind.
  rewrite (on_app_started_succeeded _ _ _ Hflag), Hinit.
  rewrite (on_app_started_succeeded _ _ _ Hflag), Hinit.
  simpl. now rewrite <- app_assoc.
Qed.

Lemma on_app_started_twice_mounts_twice_witness :
  (let* app1 := on_app_started sample_env {| routes := [] |} in
   on_app_started sample_env app1)
    (set_update_success true (module_loaded ∅ ∅)) =
    (Ret {| routes := [] ++ [photopea_mount sample_env;
                             photopea_mount sample_env] |},
     set_update_success true (module_loaded ∅ ∅)).
Proof.
  exact (on_app_started_twice_mounts_twice sample_env {| routes := [] |}
           (set_update_success true (module_loaded ∅ ∅)) eq_refl eq_refl).
Defined.

(** ** Further properties of the tab composer *)

(** X7: the [try] around the model-count setting covers the read only.
    When the setting reads as a value that is not an integer ([None] or a
    string), the tabs hook raises the [TypeError] of [range], naming the
    value's type, and returns no tab; the state is untouched. *)
Theorem on_ui_tabs_non_integer_setting (env : Env) (w : World) (v : PyVal) :
  control_net_max_models_num env = inr v ->
  as_int v = None ->
  on_ui_tabs env w =
    (Raise (TypeError ("'" +:+ type_name v +:+
                       "' object cannot be interpreted as an integer")),
     w).
Proof.
  intros Hread Hv.
  unfold on_ui_tabs, try_except, read_control_net_max_models_num, bind,
    py_range.
  rewrite Hread. simpl. rewrite Hv. reflexivity.
Qed.

Lemma on_ui_tabs_non_integer_setting_witness :
  on_ui_tabs (models_num_reading (inr VNone)) (module_loaded ∅ ∅) =
    (Raise (TypeError "'NoneType' object cannot be interpreted as an integer"),
     module_loaded ∅ ∅).
Proof.
  exact (on_ui_tabs_non_integer_setting (models_num_reading (inr VNone))
           (module_loaded ∅ ∅) VNone eq_refl eq_refl).
Defined.

Lemma str_zero_iff (i : Z) : str i = "0" <-> i = 0.
Proof.
  split; [|intros ->; reflexivity].
  intros Hstr. apply (inj pretty). exact Hstr.
Qed.

Lemma elem_of_range (n i : Z) : i ∈ range n <-> 0 <= i < n.
Proof.
  unfold range. rewrite list_elem_of_fmap. split.
  - intros [k [-> Hk]]. apply elem_of_seq in Hk. lia.
  - intros Hi. exists (Z.to_nat i). split; [lia|].
    apply elem_of_seq. lia.
Qed.

Lemma NoDup_range (n : Z) : NoDup (range n).
Proof.
  unfold range. apply NoDup_fmap; [apply _|apply NoDup_seq].
Qed.

(** X9: when the model-count setting reads as the integer [n], the
    options of the target-index selector are pairwise distinct, a string
    is an option exactly when it is [str(i)] for some [0 <= i < n], there
    are none when [n <= 0], and the selector's value ["0"] is one of its
    options exactly when [n >= 1]. *)
Theorem on_ui_tabs_selector_options (env : Env) (w : World) (n : Z) :
  control_net_max_models_num env = inr (VInt n) ->
  exists tab choices visible,
    on_ui_tabs env w = (Ret [(tab, "Photopea", "photopea_embed")], w) /\
    find_caption "ControlNet model index" tab =
      Some (Dropdown choices "ControlNet model index" "0" true visible) /\
    NoDup choices /\
    (forall s, s ∈ choices <-> exists i, 0 <= i < n /\ s = str i) /\
    (n <= 0 -> choices = []) /\
    ("0" ∈ choices <-> 1 <= n).
Proof.
  intros Hn. exists_tab_after Hn. exists (str <$> range n), (1 <? n).
  split; [reflexivity|]. split; [reflexivity|].
  assert (Hmem : forall s, s ∈ str <$> range n <->
                           exists i, 0 <= i < n /\ s = str i).
  { intros s. rewrite list_elem_of_fmap. split.
    - intros [i [-> Hi]]. exists i. split; [now apply elem_of_range|reflexivity].
    - intros [i [Hi ->]]. exists i. split; [reflexivity|now apply elem_of_range]. }
  split; [apply NoDup_fmap; [apply _|apply NoDup_range]|].
  split; [exact Hmem|].
  split.
  - intros Hle. unfold range.
    replace (Z.to_nat n) with 0%nat by lia. reflexivity.
  - rewrite Hmem. split.
    + intros [i [Hi Hs]]. symmetry in Hs. apply str_zero_iff in Hs. lia.
    + intros Hle. exists 0. split; [lia|reflexivity].
Qed.

Lemma on_ui_tabs_selector_options_witness :
  exists tab choices visible,
    on_ui_tabs sample_env (module_loaded ∅ ∅) =
      (Ret [(tab, "Photopea", "photopea_embed")], module_loaded ∅ ∅) /\
    find_caption "ControlNet model index" tab =
      Some (Dropdown choices "ControlNet model index" "0" true visible) /\
    NoDup choices /\
    (forall s, s ∈ choices <-> exists i, 0 <= i < 3 /\ s = str i) /\
    (3 <= 0 -> choices = []) /\
    ("0" ∈ choices <-> 1 <= 3).
Proof.
  exact (on_ui_tabs_selector_options sample_env (module_loaded ∅ ∅) 3 eq_refl).
Defined.

Lemma scan_active_flag_app (l1 l2 : list Extension) :
  fst (scan_active (l1 ++ l2)) =
    fst (scan_active l1) || fst (scan_active l2).
Proof.
  induction l1 as [|x l1 IH]; simpl; [reflexivity|].
  destruct (str_contains "controlnet" (name x)); [reflexivity|].
  destruct (scan_active (l1 ++ l2)) as [found tested].
  destruct (scan_active l1) as [found1 tested1]. exact IH.
Qed.

Lemma scan_active_flag_perm (l1 l2 : list Extension) :
  l1 ≡ₚ l2 -> fst (scan_active l1) = fst (scan_active l2).
Proof.
  intros Hperm.
  destruct (fst (scan_active l1)) eqn:H1, (fst (scan_active l2)) eqn:H2;
    try reflexivity.
  - apply scan_active_found_iff in H1 as [e [Hin He]].
    rewrite Hperm in Hin.
    assert (fst (scan_active l2) = true) as H2'
      by (apply scan_active_found_iff; now exists e).
    congruence.
  - apply scan_active_found_iff in H2 as [e [Hin He]].
    rewrite <- Hperm in Hin.
    assert (fst (scan_active l1) = true) as H1'
      by (apply scan_active_found_iff; now exists e).
    congruence.
Qed.

(** X10: the tab does not depend on the order in which the host lists the
    active extensions: for a reordered list the tabs hook gives the same
    outcome.  The companion flag of a list in two parts is the
    disjunction of the flags of the parts, so further extensions never
    hide the ControlNet buttons. *)
Theorem on_ui_tabs_order_independent (env : Env) (exts : list Extension)
    (w : World) :
  (active env ≡ₚ exts ->
   on_ui_tabs (with_active env exts) w = on_ui_tabs env w) /\
  (forall more,
     fst (scan_active (active env ++ more)) =
       fst (scan_active (active env)) || fst (scan_active more)) /\
  (forall more,
     fst (scan_active (more ++ active env)) =
       fst (scan_active more) || fst (scan_active (active env))).
Proof.
  split; [|split; intros more; apply scan_active_flag_app].
  intros Hperm. unfold on_ui_tabs. simpl active.
  rewrite <- (scan_active_flag_perm _ _ Hperm). reflexivity.
Qed.

Lemma on_ui_tabs_order_independent_witness :
  on_ui_tabs
    (with_active sample_env
       [ {| name := "sd-webui-controlnet" |}; {| name := "foo" |} ])
    (module_loaded ∅ ∅) =
  on_ui_tabs sample_env (module_loaded ∅ ∅).
Proof.
  apply (proj1 (on_ui_tabs_order_independent sample_env
                  [ {| name := "sd-webui-controlnet" |}; {| name := "foo" |} ]
                  (module_loaded ∅ ∅))).
  apply perm_swap.
Defined.



(** ** The whole startup, end to end *)

Lemma on_ui_tabs_returns (env : Env) :
  (forall v, control_net_max_models_num env = inr v -> is_Some (as_int v)) ->
  exists tabs, forall w, on_ui_tabs env w = (Ret tabs, w).
Proof.
  intros Hnum.
  unfold on_ui_tabs, try_except, read_control_net_max_models_num, bind,
    py_range, py_gt.
  destruct (control_net_max_models_num env) as [e|v]; simpl;
    [eexists; intros w; reflexivity|].
  destruct (Hnum v eq_refl) as [n ->]. simpl. eexists; intros w; reflexivity.
Qed.

(** X12: a startup from module load in which the clone returns, the
    model-count setting raises or reads as an integer, and the static
    handler accepts its directory, runs all four hooks to the end: the
    clone was called once, the flag is true, both options are registered,
    the tab is the one the tabs hook builds, the Photopea handler is
    mounted after the routes the application had, and nothing is
    logged. *)
Theorem host_startup_provisioned (env : Env) (app : FastAPI)
    (data : gmap string PyVal) (labels : gmap string OptionInfo) :
  let w0 := module_loaded data labels in
  git_clone env (configured_repo_url w0) (photopea_app_dir env) "Photopea"
    (configured_revision w0) = None ->
  (forall v, control_net_max_models_num env = inr v -> is_Some (as_int v)) ->
  StaticFiles_init env (joinpath (photopea_app_dir env) "www.photopea.com")
    true = None ->
  exists tabs w',
    host_startup env app w0 =
      (Ret (tabs, {| routes := routes app ++ [photopea_mount env] |}), w') /\
    fst (on_ui_tabs env w0) = Ret tabs /\
    update_success w' = true /\
    log_records w' = [] /\
    git_clone_calls w' = [provisioning_call env w0] /\
    opts_data w' = data /\
    opts_data_labels w' =
      <["photopea_commit_hash" := commit_hash_option]>
        (<["photopea_repo_url" := repo_url_option]> labels).
Proof.
  intros w0 Hclone Hnum Hstatic.
  destruct (on_ui_tabs_returns env Hnum) as [tabs Htabs].
  exists tabs. eexists.
  unfold host_startup, bind.
  rewrite on_before_ui_eq, update_photopea_eq. cbv zeta.
  rewrite Hclone. cbv beta iota.
  rewrite on_ui_settings_eq. cbv beta iota.
  rewrite Htabs. cbv beta iota.
  rewrite on_app_started_succeeded by reflexivity.
  rewrite Hstatic, (Htabs w0).
  repeat split.
Qed.

Lemma host_startup_provisioned_witness :
  exists tabs w',
    host_startup sample_env {| routes := [] |} (module_loaded pinned_data ∅) =
      (Ret (tabs, {| routes := [] ++ [photopea_mount sample_env] |}), w') /\
    fst (on_ui_tabs sample_env (module_loaded pinned_data ∅)) = Ret tabs /\
    update_success w' = true /\
    log_records w' = [] /\
    git_clone_calls w' =
      [provisioning_call sample_env (module_loaded pinned_data ∅)] /\
    opts_data w' = pinned_data /\
    opts_data_labels w' =
      <["photopea_commit_hash" := commit_hash_option]>
        (<["photopea_repo_url" := repo_url_option]> ∅).
Proof.
  apply (host_startup_provisioned sample_env {| routes := [] |} pinned_data ∅).
  - reflexivity.
  - intros v [= <-]. exists 3. reflexivity.
  - reflexivity.
Defined.

(** X13: a startup from module load in which the clone raises an
    instance of [Exception], and the model-count setting raises or reads
    as an integer, still runs all four hooks to the end, whatever the
    static handler would do: the flag is false, the options are
    registered, the tab is built as usual, the application's routes are
    as they were, and the log holds the critical record with the clone's
    exception followed by the warning, and nothing else. *)
Theorem host_startup_clone_failed (env : Env) (app : FastAPI)
    (data : gmap string PyVal) (labels : gmap string OptionInfo)
    (e : PyExc) :
  let w0 := module_loaded data labels in
  git_clone env (configured_repo_url w0) (photopea_app_dir env) "Photopea"
    (configured_revision w0) = Some e ->
  isinstance_Exception e = true ->
  (forall v, control_net_max_models_num env = inr v -> is_Some (as_int v)) ->
  exists tabs w',
    host_startup env app w0 = (Ret (tabs, app), w') /\
    fst (on_ui_tabs env w0) = Ret tabs /\
    update_success w' = false /\
    log_records w' = [update_failure_critical e; update_failure_warning] /\
    git_clone_calls w' = [provisioning_call env w0] /\
    opts_data w' = data /\
    opts_data_labels w' =
      <["photopea_commit_hash" := commit_hash_option]>
        (<["photopea_repo_url" := repo_url_option]> labels).
Proof.
  intros w0 Hclone He Hnum.
  destruct (on_ui_tabs_returns env Hnum) as [tabs Htabs].
  exists tabs. eexists.
  unfold host_startup, bind.
  rewrite on_before_ui_eq, update_photopea_eq. cbv zeta.
  rewrite Hclone, He. cbv beta iota.
  rewrite on_ui_settings_eq. cbv beta iota.
  rewrite Htabs. cbv beta iota.
  rewrite on_app_started_failed by reflexivity.
  rewrite (Htabs w0).
  repeat split.
Qed.

Lemma host_startup_clone_failed_witness :
  exists tabs w',
    host_startup (clone_raising (OSError "network unreachable"))
      {| routes := [] |} (module_loaded ∅ ∅) =
      (Ret (tabs, {| routes := [] |}), w') /\
    fst (on_ui_tabs (clone_raising (OSError "network unreachable"))
           (module_loaded ∅ ∅)) = Ret tabs /\
    update_success w' = false /\
    log_records w' =
      [ update_failure_critical (OSError "network unreachable");
        update_failure_warning ] /\
    git_clone_calls w' =
      [provisioning_call (clone_raising (OSError "network unreachable"))
         (module_loaded ∅ ∅)] /\
    opts_data w' = ∅ /\
    opts_data_labels w' =
      <["photopea_commit_hash" := commit_hash_option]>
        (<["photopea_repo_url" := repo_url_option]> ∅).
Proof.
  apply (host_startup_clone_failed
           (clone_raising (OSError "network unreachable"))
           {| routes := [] |} ∅ ∅ (OSError "network unreachable")).
  - reflexivity.
  - reflexivity.
  - intros v [= <-]. exists 3. reflexivity.
Defined.
